(** * mu: CloudFormation stack upsert and CodePipeline revision lookup

    A shallow embedding of the stack manager of package [common]
    ([buildStackParameters], [UpsertStack], [AwaitFinalStatus]) and of the
    pipeline queries of [common/pipeline.go] ([ListState],
    [getRevisionFromCodePipeline]), followed by the properties of these
    functions.

    Conventions of the embedding.
    - A Go pointer that the code dereferences is an [option]; dereferencing
      [None] is a run-time panic, as is indexing a slice out of range.
    - A Go [error] result is an [option error], [None] being [nil].
    - The AWS client is an interface in the source
      ([cloudformationiface.CloudFormationAPI]); here it is a type class over
      an abstract backend state.  Every call made through it is recorded,
      with what it answered, in the trace of the run.
    - The template reader of [UpsertStack] is an [io.Reader]; here it is
      what its [Read] calls return, or the nil interface value.
    - Calls to the logger have no effect on results and are left out. *)

From stdpp Require Import base strings list gmap.

Local Open Scope string_scope.
Local Open Scope list_scope.

(** ** Go values *)

(** An [error] value is either an [awserr.Error], which carries a code and a
    message, or some other error (such as one made by [errors.New]).  The
    type assertion [err.(awserr.Error)] succeeds on the first kind only. *)
Inductive error : Type :=
  | AwsError (code message : string)
  | OtherError (text : string).

(** Run-time panics that the modelled code can raise. *)
Inductive panic : Type :=
  | NilDereference
  | IndexOutOfRange
  | NegativeRead
  | MustFailed (e : error).

(** The outcome of running a Go function: it returns, or it panics. *)
Inductive result (A : Type) : Type :=
  | Returned (a : A)
  | Panicked (p : panic).
Arguments Returned {A} a.
Arguments Panicked {A} p.

(** ** The CloudFormation SDK types used by the stack manager *)

Module cloudformation.

(** Values of the SDK's [StackStatus*] constants. *)
Definition StackStatusCreateInProgress := "CREATE_IN_PROGRESS".
Definition StackStatusCreateFailed := "CREATE_FAILED".
Definition StackStatusCreateComplete := "CREATE_COMPLETE".
Definition StackStatusRollbackInProgress := "ROLLBACK_IN_PROGRESS".
Definition StackStatusRollbackFailed := "ROLLBACK_FAILED".
Definition StackStatusRollbackComplete := "ROLLBACK_COMPLETE".
Definition StackStatusDeleteInProgress := "DELETE_IN_PROGRESS".
Definition StackStatusDeleteFailed := "DELETE_FAILED".
Definition StackStatusDeleteComplete := "DELETE_COMPLETE".
Definition StackStatusUpdateInProgress := "UPDATE_IN_PROGRESS".
Definition StackStatusUpdateCompleteCleanupInProgress :=
  "UPDATE_COMPLETE_CLEANUP_IN_PROGRESS".
Definition StackStatusUpdateComplete := "UPDATE_COMPLETE".
Definition StackStatusUpdateRollbackInProgress := "UPDATE_ROLLBACK_IN_PROGRESS".
Definition StackStatusUpdateRollbackFailed := "UPDATE_ROLLBACK_FAILED".
Definition StackStatusUpdateRollbackCompleteCleanupInProgress :=
  "UPDATE_ROLLBACK_COMPLETE_CLEANUP_IN_PROGRESS".
Definition StackStatusUpdateRollbackComplete := "UPDATE_ROLLBACK_COMPLETE".
Definition StackStatusReviewInProgress := "REVIEW_IN_PROGRESS".

Definition CapabilityCapabilityIam := "CAPABILITY_IAM".

(** The SDK's [cloudformation.Parameter] (the bare name is reserved in
    Rocq).  Its values are built by the code itself with [aws.String], so the
    two pointers are never nil. *)
Record CfnParameter : Type := {
  ParameterKey : string;
  ParameterValue : string
}.

(** [Stack.StackStatus] is a [*string]. *)
Record Stack : Type := {
  StackStatus : option string
}.

(** [DescribeStacksOutput.Stacks] is a [[]*Stack]. *)
Record DescribeStacksOutput : Type := {
  Stacks : list (option Stack)
}.

(** The three input structures each have a [StackName] field; the fields of
    the create and update inputs are prefixed here to tell them apart. *)
Record DescribeStacksInput : Type := {
  StackName : string
}.

Record CreateStackInput : Type := {
  CreateStackName : string;
  CreateCapabilities : list string;
  CreateParameters : list CfnParameter;
  CreateTemplateBody : string
}.

Record UpdateStackInput : Type := {
  UpdateStackName : string;
  UpdateCapabilities : list string;
  UpdateParameters : list CfnParameter;
  UpdateTemplateBody : string
}.

(** The four waiters of the SDK that the code calls. *)
Inductive Waiter : Type :=
  | StackExists
  | StackCreateComplete
  | StackDeleteComplete
  | StackUpdateComplete.

End cloudformation.
Import cloudformation.

(** ** The backend interface and the runs of the code against it *)

(** The methods of [cloudformationiface.CloudFormationAPI] that the stack
    manager calls, over a backend state [B].  [CreateStack] and [UpdateStack]
    also return an output, which the code discards ([_, err := ...]); the
    waiters return an error, which the code discards as well but which the
    trace keeps. *)
Class CloudFormationAPI (B : Type) : Type := {
  DescribeStacks :
    DescribeStacksInput → B → (option DescribeStacksOutput * option error) * B;
  CreateStack : CreateStackInput → B → option error * B;
  UpdateStack : UpdateStackInput → B → option error * B;
  WaitUntil : Waiter → DescribeStacksInput → B → option error * B
}.

(** One call to the backend, with its answer. *)
Inductive Event : Type :=
  | EvDescribeStacks (params : DescribeStacksInput)
      (resp : option DescribeStacksOutput) (err : option error)
  | EvCreateStack (params : CreateStackInput) (err : option error)
  | EvUpdateStack (params : UpdateStackInput) (err : option error)
  | EvWaitUntil (w : Waiter) (params : DescribeStacksInput) (err : option error).

(** A computation that talks to the backend: from a backend state it gives
    an outcome, the next backend state and the calls it made, in order. *)
Definition Run (B A : Type) : Type := B → result A * B * list Event.

Definition run_ret {B A} (a : A) : Run B A := λ b, (Returned a, b, []).

Definition run_bind {B A C} (m : Run B A) (k : A → Run B C) : Run B C :=
  λ b,
    match m b with
    | (Returned a, b1, t1) =>
        match k a b1 with
        | (r, b2, t2) => (r, b2, t1 ++ t2)
        end
    | (Panicked p, b1, t1) => (Panicked p, b1, t1)
    end.

Definition run_panic {B A} (p : panic) : Run B A := λ b, (Panicked p, b, []).

Notation "'do' x <- m ; k" := (run_bind m (λ x, k))
  (at level 10, x name, m at level 100, k at level 200,
   format "'[v' 'do'  x  <-  m ; '/' k ']'").
Notation "'do' ( x , y ) <- m ; k" := (run_bind m (λ '(x, y), k))
  (at level 10, x name, y name, m at level 100, k at level 200,
   format "'[v' 'do'  ( x ,  y )  <-  m ; '/' k ']'").

(** What the run returned, and which calls it made. *)
Definition outcome {B A} (r : result A * B * list Event) : result A := r.1.1.
Definition trace {B A} (r : result A * B * list Event) : list Event := r.2.

Definition is_create (e : Event) : bool :=
  match e with EvCreateStack _ _ => true | _ => false end.
Definition is_update (e : Event) : bool :=
  match e with EvUpdateStack _ _ => true | _ => false end.

(** Number of events of a kind in a trace. *)
Definition count (f : Event → bool) (t : list Event) : nat :=
  length (filter (λ e, f e = true) t).

(** ** Status partitions *)

(** [status] is one of the [cases] of a [switch]. *)
Definition is_case (status : string) (cases : list string) : bool :=
  existsb (String.eqb status) cases.

(** The statuses on which [AwaitFinalStatus] waits. *)
Definition Transitional : list string :=
  [ StackStatusReviewInProgress; StackStatusCreateInProgress;
    StackStatusRollbackInProgress; StackStatusDeleteInProgress;
    StackStatusUpdateInProgress; StackStatusUpdateRollbackInProgress;
    StackStatusUpdateCompleteCleanupInProgress;
    StackStatusUpdateRollbackCompleteCleanupInProgress ].

(** The statuses of the [switch]'s last case, on which it does nothing. *)
Definition Terminal : list string :=
  [ StackStatusCreateFailed; StackStatusCreateComplete;
    StackStatusRollbackFailed; StackStatusRollbackComplete;
    StackStatusDeleteFailed; StackStatusDeleteComplete;
    StackStatusUpdateComplete; StackStatusUpdateRollbackFailed;
    StackStatusUpdateRollbackComplete ].

(** The empty string stands for a stack that does not exist. *)
Definition Absent : string := "".

(** ** The stack manager *)

(** *** Ranging over a Go map

    [for key, value := range m] visits every entry of [m] exactly once.  The
    order is left unspecified by the language and differs from one run to the
    next (the runtime starts each iteration at a random position).  The order
    taken in a run is therefore a parameter of the model: any arrangement of
    the map's entries. *)
Class MapRange : Type := {
  range : gmap string string → list (string * string);
  range_each_entry_once : ∀ m, range m ≡ₚ map_to_list m
}.

(** [buildStackParameters]: starting from an empty slice, one [Parameter] is
    appended per visited entry. *)
Definition buildStackParameters `{MapRange} (stackParameters : gmap string string)
  : list CfnParameter :=
  foldl
    (λ parameters kv,
       parameters ++ [ {| ParameterKey := kv.1; ParameterValue := kv.2 |} ])
    [] (range stackParameters).

(** *** Reading the template

    [UpsertStack] drains its [io.Reader] with [bytes.Buffer.ReadFrom], which
    calls [Read] until end of input or an error and keeps the bytes read so
    far.  A reader is modelled by what its successive [Read] calls return: a
    count of bytes with the bytes, possibly together with [io.EOF] or another
    error, or a negative count, on which [ReadFrom] panics.  A script that
    runs out stands for end of input.  The reader may also be the nil
    interface value, on which calling [Read] dereferences nil. *)
Inductive ReadReturn : Type :=
  | ReadBytes (data : string)
  | ReadEOF (data : string)
  | ReadError (data : string) (e : error)
  | ReadNegative.

Inductive Reader : Type :=
  | NilReader
  | ScriptedReader (reads : list ReadReturn).

(** The loop of [ReadFrom]: [buf] is the buffer so far. *)
Fixpoint readAll (reads : list ReadReturn) (buf : string)
  : result (string * option error) :=
  match reads with
  | [] => Returned (buf, None)
  | ReadBytes data :: rest => readAll rest (buf +:+ data)
  | ReadEOF data :: _ => Returned (buf +:+ data, None)
  | ReadError data e :: _ => Returned (buf +:+ data, Some e)
  | ReadNegative :: _ => Panicked NegativeRead
  end.

(** [new(bytes.Buffer).ReadFrom(r)], as the contents of the buffer afterwards
    and the error returned. *)
Definition ReadFrom (r : Reader) : result (string * option error) :=
  match r with
  | NilReader => Panicked NilDereference
  | ScriptedReader reads => readAll reads ""
  end.

Section StackManager.

Context {B : Type} `{cfnAPI : CloudFormationAPI B} `{goRange : MapRange}.

Definition callDescribeStacks (params : DescribeStacksInput)
  : Run B (option DescribeStacksOutput * option error) :=
  λ b, let '(r, b') := DescribeStacks params b in
       (Returned r, b', [EvDescribeStacks params r.1 r.2]).

Definition callCreateStack (params : CreateStackInput) : Run B (option error) :=
  λ b, let '(err, b') := CreateStack params b in
       (Returned err, b', [EvCreateStack params err]).

Definition callUpdateStack (params : UpdateStackInput) : Run B (option error) :=
  λ b, let '(err, b') := UpdateStack params b in
       (Returned err, b', [EvUpdateStack params err]).

Definition callWaitUntil (w : Waiter) (params : DescribeStacksInput)
  : Run B (option error) :=
  λ b, let '(err, b') := WaitUntil w params b in
       (Returned err, b', [EvWaitUntil w params err]).

(** The expression [*resp.Stacks[0].StackStatus]: [resp], the first element
    of the slice and its [StackStatus] are pointers, and the slice may be
    empty. *)
Definition firstStackStatus (resp : option DescribeStacksOutput)
  : result string :=
  match resp with
  | None => Panicked NilDereference
  | Some r =>
      match Stacks r with
      | [] => Panicked IndexOutOfRange
      | None :: _ => Panicked NilDereference
      | Some st :: _ =>
          match StackStatus st with
          | None => Panicked NilDereference
          | Some s => Returned s
          end
      end
  end.

Definition lift {A} (r : result A) : Run B A :=
  match r with
  | Returned a => run_ret a
  | Panicked p => run_panic p
  end.

(** The guard [err == nil && resp != nil && len(resp.Stacks) == 1]. *)
Definition oneStack (resp : option DescribeStacksOutput) (err : option error)
  : bool :=
  match err, resp with
  | None, Some r => Nat.eqb (length (Stacks r)) 1
  | _, _ => false
  end.

Definition AwaitFinalStatus (stackName : string) : Run B string :=
  let params := {| StackName := stackName |} in
  do (resp, err) <- callDescribeStacks params;
  if oneStack resp err then
    do status <- lift (firstStackStatus resp);
    do (resp, err) <-
      (if is_case status
            [ StackStatusReviewInProgress; StackStatusCreateInProgress;
              StackStatusRollbackInProgress ]
       then
         do _ <- callWaitUntil StackCreateComplete params;
         callDescribeStacks params
       else if is_case status [ StackStatusDeleteInProgress ]
       then
         do _ <- callWaitUntil StackDeleteComplete params;
         callDescribeStacks params
       else if is_case status
            [ StackStatusUpdateInProgress; StackStatusUpdateRollbackInProgress;
              StackStatusUpdateCompleteCleanupInProgress;
              StackStatusUpdateRollbackCompleteCleanupInProgress ]
       then
         do _ <- callWaitUntil StackUpdateComplete params;
         callDescribeStacks params
       else
         run_ret (resp, err));
    do final <- lift (firstStackStatus resp);
    run_ret final
  else
    run_ret "".

(** The test [awsErr.Code() == "ValidationError" && awsErr.Message() == "No
    updates are to be performed."], under the type assertion
    [err.(awserr.Error)]. *)
Definition noUpdates (err : error) : bool :=
  match err with
  | AwsError code message =>
      String.eqb code "ValidationError"
      && String.eqb message "No updates are to be performed."
  | OtherError _ => false
  end.

(** [UpsertStack].  The reader is drained after the resolver has returned;
    the error that [ReadFrom] returns is not looked at, and the contents of
    the buffer are the template body. *)
Definition UpsertStack (stackName : string) (templateBodyReader : Reader)
    (stackParameters : gmap string string) : Run B (option error) :=
  do stackStatus <- AwaitFinalStatus stackName;
  do templateBodyBytes <- lift (ReadFrom templateBodyReader);
  let templateBody := templateBodyBytes.1 in
  let parameters := buildStackParameters stackParameters in
  if String.eqb stackStatus "" then
    let params :=
      {| CreateStackName := stackName;
         CreateCapabilities := [ CapabilityCapabilityIam ];
         CreateParameters := parameters;
         CreateTemplateBody := templateBody |} in
    do err <- callCreateStack params;
    match err with
    | Some e => run_ret (Some e)
    | None =>
        let waitParams := {| StackName := stackName |} in
        do _ <- callWaitUntil StackExists waitParams;
        run_ret None
    end
  else
    let params :=
      {| UpdateStackName := stackName;
         UpdateCapabilities := [ CapabilityCapabilityIam ];
         UpdateParameters := parameters;
         UpdateTemplateBody := templateBody |} in
    do err <- callUpdateStack params;
    match err with
    | Some e => if noUpdates e then run_ret None else run_ret (Some e)
    | None => run_ret None
    end.

End StackManager.

(** ** The pipeline revision lookup, [pipeline.go] *)

Module codepipeline.

(** [ActionRevision.RevisionId] is a [*string]. *)
Record ActionRevision : Type := {
  RevisionId : option string
}.

(** [ActionState.ActionName] is a [*string] and [ActionState.CurrentRevision]
    a [*ActionRevision]; the service leaves the latter out for an action that
    has no revision. *)
Record ActionState : Type := {
  ActionName : option string;
  CurrentRevision : option ActionRevision
}.

(** [StageState.ActionStates] is a [[]*ActionState]. *)
Record StageState : Type := {
  ActionStates : list (option ActionState)
}.

(** [GetPipelineStateOutput.StageStates] is a [[]*StageState]. *)
Record GetPipelineStateOutput : Type := {
  StageStates : list (option StageState)
}.

Record GetPipelineStateInput : Type := {
  Name : string
}.

End codepipeline.
Import codepipeline.

(** What [getRevisionFromCodePipeline] obtains from its surroundings: the
    error of [session.NewSession] and the answer of the service to
    [GetPipelineState]. *)
Class CodePipelineService : Type := {
  NewSession : option error;
  GetPipelineState :
    GetPipelineStateInput → option GetPipelineStateOutput * option error
}.

(** A small error monad for code that may panic. *)
Definition bind_result {A C} (r : result A) (k : A → result C) : result C :=
  match r with
  | Returned a => k a
  | Panicked p => Panicked p
  end.

(** Dereference of a pointer. *)
Definition deref {A} (p : option A) : result A :=
  match p with
  | Some a => Returned a
  | None => Panicked NilDereference
  end.

(** The inner loop over the actions of one stage: [Some id] when the loop
    returns the revision [id] from the function, [None] when it runs to its
    end. *)
Fixpoint scanActions (actionStates : list (option ActionState))
  : result (option string) :=
  match actionStates with
  | [] => Returned None
  | actionState :: rest =>
      bind_result (deref actionState) (λ a,
      bind_result (deref (ActionName a)) (λ name,
      if String.eqb name "Source" then
        bind_result (deref (CurrentRevision a)) (λ rev,
        bind_result (deref (RevisionId rev)) (λ id,
        Returned (Some id)))
      else scanActions rest))
  end.

(** The outer loop over the stages. *)
Fixpoint scanStages (stageStates : list (option StageState))
  : result (option string) :=
  match stageStates with
  | [] => Returned None
  | stageState :: rest =>
      bind_result (deref stageState) (λ s,
      bind_result (scanActions (ActionStates s)) (λ found,
      match found with
      | Some id => Returned (Some id)
      | None => scanStages rest
      end))
  end.

(** The error made by [errors.New] on the last line. *)
Definition notFound (pipelineName : string) : error :=
  OtherError ("Can not locate revision from CodePipeline: " +:+ pipelineName).

(** [getRevisionFromCodePipeline]: the returned pair is the revision and the
    error.  [session.Must] panics when the session cannot be made. *)
Definition getRevisionFromCodePipeline `{CodePipelineService}
    (pipelineName : string) : result (string * option error) :=
  match NewSession with
  | Some e => Panicked (MustFailed e)
  | None =>
      let params := {| Name := pipelineName |} in
      let '(response, err) := GetPipelineState params in
      match err with
      | Some e => Returned ("", Some e)
      | None =>
          bind_result (deref response) (λ r,
          bind_result (scanStages (StageStates r)) (λ found,
          match found with
          | Some id => Returned (id, None)
          | None => Returned ("", Some (notFound pipelineName))
          end))
      end
  end.

(** [ListState], the method of the pipeline manager: the same query, made
    through the manager's client.  On an error the returned slice is nil,
    which as a slice is the empty one.  The service of the model stands for
    the pipeline service behind both clients. *)
Definition ListState `{CodePipelineService} (pipelineName : string)
  : result (list (option StageState) * option error) :=
  let params := {| Name := pipelineName |} in
  let '(output, err) := GetPipelineState params in
  match err with
  | Some e => Returned ([], Some e)
  | None => bind_result (deref output) (λ o, Returned (StageStates o, None))
  end.

(** ** Notions used to state the properties *)

(** The waiter that the [switch] picks for a status, if any. *)
Definition waiterOf (status : string) : option Waiter :=
  if is_case status
       [ StackStatusReviewInProgress; StackStatusCreateInProgress;
         StackStatusRollbackInProgress ]
  then Some StackCreateComplete
  else if is_case status [ StackStatusDeleteInProgress ]
  then Some StackDeleteComplete
  else if is_case status
       [ StackStatusUpdateInProgress; StackStatusUpdateRollbackInProgress;
         StackStatusUpdateCompleteCleanupInProgress;
         StackStatusUpdateRollbackCompleteCleanupInProgress ]
  then Some StackUpdateComplete
  else None.

(** The pair made of one entry. *)
Definition pairOf (kv : string * string) : CfnParameter :=
  {| ParameterKey := kv.1; ParameterValue := kv.2 |}.

(** The error that CloudFormation answers to an update that changes
    nothing. *)
Definition noUpdatesError : error :=
  AwsError "ValidationError" "No updates are to be performed.".

Section Requests.

Context `{goRange : MapRange}.

(** The requests that [UpsertStack] builds. *)
Definition createRequest (stackName templateBody : string)
    (stackParameters : gmap string string) : CreateStackInput :=
  {| CreateStackName := stackName;
     CreateCapabilities := [ CapabilityCapabilityIam ];
     CreateParameters := buildStackParameters stackParameters;
     CreateTemplateBody := templateBody |}.

Definition updateRequest (stackName templateBody : string)
    (stackParameters : gmap string string) : UpdateStackInput :=
  {| UpdateStackName := stackName;
     UpdateCapabilities := [ CapabilityCapabilityIam ];
     UpdateParameters := buildStackParameters stackParameters;
     UpdateTemplateBody := templateBody |}.

End Requests.

(** The action states of a response, in scan order: stage by stage, and
    within a stage in the order of its actions (nil entries left out). *)
Definition presentActions (r : GetPipelineStateOutput) : list ActionState :=
  flat_map (λ s : StageState, omap id (ActionStates s))
    (omap id (StageStates r)).

Definition namedSource (a : ActionState) : bool :=
  match ActionName a with
  | Some name => String.eqb name "Source"
  | None => false
  end.

(** The first action named [Source] in scan order. *)
Definition firstSource (r : GetPipelineStateOutput) : option ActionState :=
  find namedSource (presentActions r).

(** Some stage has an action named [Source]. *)
Definition hasSource (r : GetPipelineStateOutput) : Prop :=
  ∃ s a, Some s ∈ StageStates r ∧ Some a ∈ ActionStates s
         ∧ ActionName a = Some "Source".

(** The revision identifier that an action carries, if any. *)
Definition revisionOf (a : ActionState) : option string :=
  match CurrentRevision a with
  | Some rev => RevisionId rev
  | None => None
  end.

(** Every stage and every action of the response is there and every action
    has a name. *)
Definition allNamed (r : GetPipelineStateOutput) : Prop :=
  Forall (λ stage, ∃ s, stage = Some s
            ∧ Forall (λ action, ∃ a, action = Some a ∧ is_Some (ActionName a))
                (ActionStates s))
    (StageStates r).

(** What the scan does on the first [Source] action. *)
Definition readRevision (a : ActionState) : result (option string) :=
  bind_result (deref (CurrentRevision a)) (λ rev,
  bind_result (deref (RevisionId rev)) (λ id, Returned (Some id))).

(** Kinds of calls in a trace. *)
Definition is_describe (e : Event) : bool :=
  match e with EvDescribeStacks _ _ _ => true | _ => false end.
Definition is_wait (e : Event) : bool :=
  match e with EvWaitUntil _ _ _ => true | _ => false end.

(** The call [e] is a query or a wait about the stack [stackName]. *)
Definition readsStack (stackName : string) (e : Event) : Prop :=
  match e with
  | EvDescribeStacks params _ _ => StackName params = stackName
  | EvWaitUntil _ params _ => StackName params = stackName
  | EvCreateStack _ _ | EvUpdateStack _ _ => False
  end.

(** The call [e] is about the stack [stackName] and, when it is a create or
    an update request, carries the name, the template body, the single
    capability [CAPABILITY_IAM] and the listed parameters. *)
Definition upsertCall (stackName templateBody : string)
    (parameters : list CfnParameter) (e : Event) : Prop :=
  match e with
  | EvDescribeStacks params _ _ => StackName params = stackName
  | EvWaitUntil _ params _ => StackName params = stackName
  | EvCreateStack params _ =>
      CreateStackName params = stackName
      ∧ CreateCapabilities params = [ "CAPABILITY_IAM" ]
      ∧ CreateParameters params = parameters
      ∧ CreateTemplateBody params = templateBody
  | EvUpdateStack params _ =>
      UpdateStackName params = stackName
      ∧ UpdateCapabilities params = [ "CAPABILITY_IAM" ]
      ∧ UpdateParameters params = parameters
      ∧ UpdateTemplateBody params = templateBody
  end.

(** The template body that [UpsertStack] gets out of a reader (the empty
    text for a reader on which draining panics, where no body is got). *)
Definition drained (r : Reader) : string :=
  match ReadFrom r with
  | Returned (text, _) => text
  | Panicked _ => ""
  end.

(** The entry that a pair stands for. *)
Definition entryOf (p : CfnParameter) : string * string :=
  (ParameterKey p, ParameterValue p).

(** ** Concrete backends, for running the code *)

(** A backend that answers [DescribeStacks] from a script, one answer per
    call, and answers "no such stack" once the script is used up.  The other
    calls answer with fixed errors (or none). *)
Record Scripted : Type := {
  describes : list (option DescribeStacksOutput * option error);
  createErr : option error;
  updateErr : option error;
  waitErr : option error
}.

Definition noSuchStack : option DescribeStacksOutput * option error :=
  (Some {| Stacks := [] |},
   Some (AwsError "ValidationError" "Stack with id demo-stack does not exist")).

#[global] Instance scriptedAPI : CloudFormationAPI Scripted := {
  DescribeStacks _ b :=
    match describes b with
    | [] => (noSuchStack, b)
    | r :: rest =>
        (r, {| describes := rest; createErr := createErr b;
               updateErr := updateErr b; waitErr := waitErr b |})
    end;
  CreateStack _ b := (createErr b, b);
  UpdateStack _ b := (updateErr b, b);
  WaitUntil _ _ b := (waitErr b, b)
}.

(** A response listing stacks with the given statuses. *)
Definition stacksWith (statuses : list string)
  : option DescribeStacksOutput * option error :=
  (Some {| Stacks := map (λ s, Some {| StackStatus := Some s |}) statuses |},
   None).

Definition script (ds : list (option DescribeStacksOutput * option error))
  : Scripted :=
  {| describes := ds; createErr := None; updateErr := None; waitErr := None |}.

(** A backend on which the stack exists with the given status and which
    answers an update with [uerr]. *)
Definition existing (status : string) (uerr : option error) : Scripted :=
  {| describes := [ stacksWith [ status ] ]; createErr := None;
     updateErr := uerr; waitErr := None |}.

(** A backend on which the stack does not exist and which answers a create
    with [cerr]. *)
Definition missing (cerr : option error) : Scripted :=
  {| describes := []; createErr := cerr; updateErr := None; waitErr := None |}.

(** A reader over a text, as [strings.NewReader] makes one: the text in one
    read, then end of input. *)
Definition readerOf (text : string) : Reader :=
  ScriptedReader [ ReadBytes text ].

(** The parameters of the running example. *)
Definition demoParameters : gmap string string := {[ "Env" := "dev" ]}.

(** Two ways a run may range over a map: in the order [map_to_list] lists the
    entries, and in the reverse of it. *)
#[global] Instance rangeListed : MapRange := {
  range := map_to_list;
  range_each_entry_once m := reflexivity (map_to_list m)
}.

Definition rangeReversed : MapRange := {|
  range m := reverse (map_to_list m);
  range_each_entry_once m := reverse_Permutation (map_to_list m)
|}.

(** The state of a pipeline whose [Source] action has a revision and is
    followed by a [Build] action, which has none. *)
Definition stateWithRevision : GetPipelineStateOutput :=
  {| StageStates :=
       [ Some {| ActionStates :=
                   [ Some {| ActionName := Some "Source";
                             CurrentRevision :=
                               Some {| RevisionId := Some "4f2c9a1" |} |} ] |};
         Some {| ActionStates :=
                   [ Some {| ActionName := Some "Build";
                             CurrentRevision := None |} ] |} ] |}.

(** The state of a pipeline whose [Source] action has not run yet: the
    service reports no current revision for it. *)
Definition stateBeforeFirstRun : GetPipelineStateOutput :=
  {| StageStates :=
       [ Some {| ActionStates :=
                   [ Some {| ActionName := Some "Source";
                             CurrentRevision := None |} ] |} ] |}.

(** A service that answers every query with the state [r]. *)
Definition serving (r : GetPipelineStateOutput) : CodePipelineService :=
  {| NewSession := None; GetPipelineState _ := (Some r, None) |}.

(** The state of a pipeline whose first stage has no [Source] action. *)
Definition stateWithoutSource : GetPipelineStateOutput :=
  {| StageStates :=
       [ Some {| ActionStates :=
                   [ Some {| ActionName := Some "Build";
                             CurrentRevision := None |} ] |} ] |}.

(** A service whose query fails with [e]. *)
Definition failing (e : error) : CodePipelineService :=
  {| NewSession := None; GetPipelineState _ := (None, Some e) |}.

(** A backend on which the stack is being created when first asked, and
    created when asked again. *)
Definition creating : Scripted :=
  script [ stacksWith [ StackStatusCreateInProgress ];
           stacksWith [ StackStatusCreateComplete ] ].

(** A backend on which the stack is being deleted when first asked, and gone
    when asked again. *)
Definition deleting : Scripted :=
  script [ stacksWith [ StackStatusDeleteInProgress ] ].

(** * Properties *)

(** ** The status resolver, [AwaitFinalStatus] *)

Lemma waiterOf_Transitional status :
  is_case status Transitional = true ↔ is_Some (waiterOf status).
Proof.
  unfold waiterOf, Transitional, is_case. cbn [existsb].
  repeat match goal with
         | |- context [String.eqb status ?c] => destruct (String.eqb status c)
         end; cbn; split; intros Hs; try done; try (by eexists); by destruct Hs.
Qed.

Lemma Terminal_not_Transitional status :
  is_case status Terminal = true → is_case status Transitional = false.
Proof.
  unfold is_case, Terminal. cbn [existsb]. rewrite !orb_true_iff.
  intros Hs. repeat destruct Hs as [Hs|Hs]; try done;
    apply String.eqb_eq in Hs; subst status; reflexivity.
Qed.

Lemma Terminal_not_Absent status :
  is_case status Terminal = true → status ≠ Absent.
Proof. intros Hs ->. discriminate Hs. Qed.

Section ResolverFacts.

Context {B : Type} `{cfnAPI : CloudFormationAPI B}.

(** [AwaitFinalStatus] step by step: one query; on exactly one stack with a
    status that has a waiter, one wait and one more query, whose answer is
    read without the checks made on the first. *)
Lemma AwaitFinalStatus_steps (stackName : string) (b : B) :
  AwaitFinalStatus stackName b =
    let params := {| StackName := stackName |} in
    let '((resp, err), b1) := DescribeStacks params b in
    let first := EvDescribeStacks params resp err in
    if oneStack resp err then
      match firstStackStatus resp with
      | Panicked p => (Panicked p, b1, [first])
      | Returned status =>
          match waiterOf status with
          | None => (Returned status, b1, [first])
          | Some w =>
              let '(werr, b2) := WaitUntil w params b1 in
              let '((resp2, err2), b3) := DescribeStacks params b2 in
              (firstStackStatus resp2, b3,
               [first; EvWaitUntil w params werr;
                EvDescribeStacks params resp2 err2])
          end
      end
    else (Returned Absent, b1, [first]).
Proof.
  unfold AwaitFinalStatus, run_bind, callDescribeStacks. cbn zeta.
  destruct (DescribeStacks _ b) as [[resp err] b1]. cbn [fst snd].
  destruct (oneStack resp err); [|reflexivity].
  destruct (firstStackStatus resp) as [status|p] eqn:Hfirst; [|reflexivity].
  unfold waiterOf, lift. cbn [run_ret].
  repeat match goal with
         | |- context [if is_case status ?l then _ else _] =>
             destruct (is_case status l)
         end;
    unfold run_bind, callWaitUntil, callDescribeStacks, run_ret, run_panic;
    repeat match goal with
           | |- context [WaitUntil ?w ?p ?x] =>
               destruct (WaitUntil w p x) as [? ?]
           | |- context [DescribeStacks ?p ?x] =>
               destruct (DescribeStacks p x) as [[? ?] ?]
           end;
    cbn [fst snd]; rewrite ?Hfirst;
    try match goal with
        | |- context [firstStackStatus ?r] => destruct (firstStackStatus r)
        end;
    cbn; rewrite ?app_nil_r; reflexivity.
Qed.

(** The first query alone decides absence. *)
Lemma AwaitFinalStatus_not_one_stack stackName b resp err b1 :
  DescribeStacks {| StackName := stackName |} b = ((resp, err), b1) →
  oneStack resp err = false →
  AwaitFinalStatus stackName b =
    (Returned Absent, b1, [EvDescribeStacks {| StackName := stackName |} resp err]).
Proof.
  intros Hq Hone. rewrite AwaitFinalStatus_steps. cbn zeta.
  rewrite Hq, Hone. reflexivity.
Qed.

(** The resolver only queries and waits. *)
Lemma AwaitFinalStatus_reads_only stackName b :
  count is_create (trace (AwaitFinalStatus stackName b)) = 0
  ∧ count is_update (trace (AwaitFinalStatus stackName b)) = 0.
Proof.
  rewrite AwaitFinalStatus_steps. cbn zeta.
  destruct (DescribeStacks _ b) as [[resp err] b1].
  destruct (oneStack resp err); [|done].
  destruct (firstStackStatus resp) as [status|p]; [|done].
  destruct (waiterOf status) as [w|]; [|done].
  destruct (WaitUntil w _ b1) as [werr b2].
  destruct (DescribeStacks _ b2) as [[resp2 err2] b3]. done.
Qed.

End ResolverFacts.

Section Resolver.

Context {B : Type} `{cfnAPI : CloudFormationAPI B}.

(** C5.  When the describe-stacks query fails, or answers with no response or
    with no stack, [AwaitFinalStatus] returns [Absent]: it makes no further
    call, and the error of the query goes nowhere (the result is a string). *)
Theorem AwaitFinalStatus_failed_query_is_absent (stackName : string) (b b1 : B)
    (resp : option DescribeStacksOutput) (err : option error) :
  DescribeStacks {| StackName := stackName |} b = ((resp, err), b1) →
  err ≠ None ∨ resp = None ∨ (∃ r, resp = Some r ∧ Stacks r = []) →
  AwaitFinalStatus stackName b
    = (Returned Absent, b1,
       [EvDescribeStacks {| StackName := stackName |} resp err]).
Proof.
  intros Hq Hfail. apply AwaitFinalStatus_not_one_stack; [exact Hq|].
  destruct Hfail as [Herr|[->|(r & -> & Hr)]].
  - by destruct err.
  - by destruct err.
  - destruct err; [done|]. cbn. by rewrite Hr.
Qed.

(** C10.  When the describe-stacks response lists two or more stacks,
    [AwaitFinalStatus] returns [Absent]; and a result other than [Absent]
    arises only when the query succeeded and listed exactly one stack. *)
Theorem AwaitFinalStatus_one_stack_only (stackName : string) (b b1 : B)
    (resp : option DescribeStacksOutput) (err : option error) :
  DescribeStacks {| StackName := stackName |} b = ((resp, err), b1) →
  (∀ r, resp = Some r → (2 ≤ length (Stacks r))%nat →
        outcome (AwaitFinalStatus stackName b) = Returned Absent)
  ∧ (∀ s, outcome (AwaitFinalStatus stackName b) = Returned s → s ≠ Absent →
          err = None ∧ ∃ r, resp = Some r ∧ length (Stacks r) = 1).
Proof.
  intros Hq. split.
  - intros r -> Hlen.
    rewrite (AwaitFinalStatus_not_one_stack _ _ _ _ _ Hq); [reflexivity|].
    destruct err; [done|]. cbn. apply Nat.eqb_neq. lia.
  - intros s Hs Hne. destruct (oneStack resp err) eqn:Hone.
    + destruct err; [by destruct resp|]. destruct resp as [r|]; [|done].
      split; [done|]. exists r. split; [done|]. by apply Nat.eqb_eq.
    + rewrite (AwaitFinalStatus_not_one_stack _ _ _ _ _ Hq Hone) in Hs.
      injection Hs as <-. done.
Qed.

End Resolver.

(** C2, the defect.  [AwaitFinalStatus] is documented to return a final
    status or the empty string.  When the first query sees
    [CREATE_IN_PROGRESS] and, the wait over (it timed out, say; its error is
    dropped), the re-query still sees [CREATE_IN_PROGRESS], the call returns
    [CREATE_IN_PROGRESS]: a Transitional status, neither Terminal nor
    [Absent].  The answer of the re-query is used unchecked, as in C7. *)
Theorem AwaitFinalStatus_returns_transitional :
  ∃ s,
    outcome (AwaitFinalStatus "demo-stack"
               (script [ stacksWith [ StackStatusCreateInProgress ];
                         stacksWith [ StackStatusCreateInProgress ] ]))
      = Returned s
    ∧ is_case s Transitional = true
    ∧ ¬ (s = Absent ∨ is_case s Terminal = true).
Proof.
  exists StackStatusCreateInProgress. split; [reflexivity|].
  split; [reflexivity|]. intros [Hs|Hs]; discriminate Hs.
Qed.

Lemma AwaitFinalStatus_failed_query_is_absent_witness :
  AwaitFinalStatus "demo-stack" (script [])
    = (Returned Absent, script [],
       [EvDescribeStacks {| StackName := "demo-stack" |}
          noSuchStack.1 noSuchStack.2]).
Proof.
  apply (AwaitFinalStatus_failed_query_is_absent "demo-stack" (script [])
           (script []) noSuchStack.1 noSuchStack.2).
  - reflexivity.
  - left. discriminate.
Defined.

Lemma AwaitFinalStatus_one_stack_only_witness :
  outcome (AwaitFinalStatus "demo-stack"
             (script [ stacksWith [ StackStatusCreateComplete;
                                    StackStatusUpdateComplete ] ]))
    = Returned Absent
  ∧ (@None error = None
     ∧ ∃ r, (stacksWith [ StackStatusUpdateComplete ]).1 = Some r
            ∧ length (Stacks r) = 1).
Proof.
  split.
  - eapply (AwaitFinalStatus_one_stack_only "demo-stack"
              (script [ stacksWith [ StackStatusCreateComplete;
                                     StackStatusUpdateComplete ] ])).
    + reflexivity.
    + reflexivity.
    + apply le_n.
  - eapply (AwaitFinalStatus_one_stack_only "demo-stack"
              (script [ stacksWith [ StackStatusUpdateComplete ] ])).
    + reflexivity.
    + reflexivity.
    + discriminate.
Defined.

(** C7, the defect.  After a wait, the answer of the re-query is read without
    the checks made on the first answer.  A stack that was being deleted is
    gone when the wait ends: the re-query fails and lists no stack, and
    reading the first stack's status panics.  Likewise when the re-query
    comes back with an error and no response at all. *)
Theorem AwaitFinalStatus_panics_on_failed_requery :
  outcome (AwaitFinalStatus "demo-stack"
             (script [ stacksWith [ StackStatusDeleteInProgress ] ]))
    = Panicked IndexOutOfRange
  ∧ outcome (AwaitFinalStatus "demo-stack"
               (script [ stacksWith [ StackStatusDeleteInProgress ];
                         (None, Some (OtherError "RequestError: send request failed")) ]))
    = Panicked NilDereference.
Proof. split; reflexivity. Qed.

(** ** The upsert coordinator, [UpsertStack] *)

Lemma noUpdates_spec (e : error) : noUpdates e = true ↔ e = noUpdatesError.
Proof.
  unfold noUpdatesError. destruct e as [code message|text]; cbn.
  - rewrite andb_true_iff, !String.eqb_eq. split.
    + by intros [-> ->].
    + by intros [= -> ->].
  - split; [discriminate|discriminate].
Qed.

Lemma count_app (f : Event → bool) (t1 t2 : list Event) :
  count f (t1 ++ t2) = count f t1 + count f t2.
Proof. unfold count. by rewrite filter_app, length_app. Qed.

Lemma ReadFrom_readerOf (text : string) :
  ReadFrom (readerOf text) = Returned (text, None).
Proof. reflexivity. Qed.

Section Coordinator.

Context {B : Type} `{cfnAPI : CloudFormationAPI B} `{goRange : MapRange}.

(** [UpsertStack] step by step, once the resolver has returned and the
    reader is drained. *)
Lemma UpsertStack_steps stackName templateBodyReader stackParameters
    (b b1 : B) (status : string) (t1 : list Event)
    (templateBody : string) (readErr : option error) :
  AwaitFinalStatus stackName b = (Returned status, b1, t1) →
  ReadFrom templateBodyReader = Returned (templateBody, readErr) →
  UpsertStack stackName templateBodyReader stackParameters b =
    if String.eqb status Absent then
      let params := createRequest stackName templateBody stackParameters in
      let '(err, b2) := CreateStack params b1 in
      match err with
      | Some e => (Returned (Some e), b2, t1 ++ [EvCreateStack params (Some e)])
      | None =>
          let waitParams := {| StackName := stackName |} in
          let '(werr, b3) := WaitUntil StackExists waitParams b2 in
          (Returned None, b3,
           t1 ++ [EvCreateStack params None;
                  EvWaitUntil StackExists waitParams werr])
      end
    else
      let params := updateRequest stackName templateBody stackParameters in
      let '(err, b2) := UpdateStack params b1 in
      (match err with
       | Some e => if noUpdates e then Returned None else Returned (Some e)
       | None => Returned None
       end, b2, t1 ++ [EvUpdateStack params err]).
Proof.
  intros Hres Hread. unfold UpsertStack, run_bind at 1. rewrite Hres.
  unfold run_bind at 1. rewrite Hread. cbn [lift run_ret fst].
  unfold Absent, createRequest, updateRequest. cbn zeta.
  destruct (String.eqb status "").
  - unfold run_bind, callCreateStack, callWaitUntil, run_ret.
    destruct (CreateStack _ b1) as [[e|] b2]; [reflexivity|].
    destruct (WaitUntil _ _ b2) as [werr b3]. reflexivity.
  - unfold run_bind, callUpdateStack, run_ret.
    destruct (UpdateStack _ b1) as [[e|] b2]; [|reflexivity].
    destruct (noUpdates e); reflexivity.
Qed.

(** A panic of the resolver is a panic of [UpsertStack], before any
    request. *)
Lemma UpsertStack_resolver_panic stackName templateBodyReader stackParameters
    (b b1 : B) (p : panic) (t1 : list Event) :
  AwaitFinalStatus stackName b = (Panicked p, b1, t1) →
  UpsertStack stackName templateBodyReader stackParameters b
    = (Panicked p, b1, t1).
Proof. intros Hres. unfold UpsertStack, run_bind. by rewrite Hres. Qed.

(** So is a panic on draining the reader: the calls made are those of the
    resolver. *)
Lemma UpsertStack_reader_panic stackName templateBodyReader stackParameters
    (b b1 : B) (status : string) (p : panic) (t1 : list Event) :
  AwaitFinalStatus stackName b = (Returned status, b1, t1) →
  ReadFrom templateBodyReader = Panicked p →
  UpsertStack stackName templateBodyReader stackParameters b
    = (Panicked p, b1, t1).
Proof.
  intros Hres Hread. unfold UpsertStack, run_bind at 1. rewrite Hres.
  unfold run_bind. rewrite Hread. cbn. by rewrite app_nil_r.
Qed.

(** C1.  On the update path, when the update is refused with code
    [ValidationError] and message [No updates are to be performed.],
    [UpsertStack] returns [nil].  (That the update is submitted supposes
    that the template reader was drained.) *)
Theorem UpsertStack_no_updates_is_success stackName templateBodyReader
    stackParameters (b b1 b2 : B) (status : string) (t1 : list Event)
    (templateBody : string) (readErr : option error) :
  AwaitFinalStatus stackName b = (Returned status, b1, t1) →
  ReadFrom templateBodyReader = Returned (templateBody, readErr) →
  status ≠ Absent →
  UpdateStack (updateRequest stackName templateBody stackParameters) b1
    = (Some (AwsError "ValidationError" "No updates are to be performed."), b2) →
  outcome (UpsertStack stackName templateBodyReader stackParameters b)
    = Returned None.
Proof.
  intros Hres Hread Hpresent Hupd.
  rewrite (UpsertStack_steps _ _ _ _ _ _ _ _ _ Hres Hread).
  apply String.eqb_neq in Hpresent. rewrite Hpresent. cbn zeta.
  rewrite Hupd. reflexivity.
Qed.

(** C3 (as amended).  In an invocation in which the template reader is
    drained: when the resolver returns [Absent], [UpsertStack] issues exactly
    one create request and no update request; when it returns anything else,
    exactly one update request and no create request. *)
Theorem UpsertStack_create_xor_update stackName templateBodyReader
    stackParameters (b b1 : B) (status : string) (t1 : list Event)
    (templateBody : string) (readErr : option error) :
  AwaitFinalStatus stackName b = (Returned status, b1, t1) →
  ReadFrom templateBodyReader = Returned (templateBody, readErr) →
  let t := trace (UpsertStack stackName templateBodyReader stackParameters b) in
  (status = Absent → count is_create t = 1 ∧ count is_update t = 0)
  ∧ (status ≠ Absent → count is_update t = 1 ∧ count is_create t = 0).
Proof.
  intros Hres Hread t. subst t.
  rewrite (UpsertStack_steps _ _ _ _ _ _ _ _ _ Hres Hread).
  pose proof (AwaitFinalStatus_reads_only stackName b) as [Hc Hu].
  rewrite Hres in Hc, Hu. unfold trace in Hc, Hu. cbn [snd] in Hc, Hu.
  split.
  - intros ->. cbn [String.eqb Absent]. cbn zeta.
    destruct (CreateStack _ b1) as [[e|] b2].
    + unfold trace. cbn [snd]. rewrite !count_app, Hc, Hu. done.
    + destruct (WaitUntil _ _ b2) as [werr b3].
      unfold trace. cbn [snd]. rewrite !count_app, Hc, Hu. done.
  - intros Hpresent. apply String.eqb_neq in Hpresent. rewrite Hpresent.
    cbn zeta. destruct (UpdateStack _ b1) as [err b2].
    unfold trace. cbn [snd]. rewrite !count_app, Hc, Hu. done.
Qed.

(** C4.  When the create or the update request fails with an error other
    than the "no updates" one, [UpsertStack] returns that very error.  (That
    the request is submitted supposes that the template reader was
    drained.) *)
Theorem UpsertStack_error_passthrough stackName templateBodyReader
    stackParameters (b b1 b2 : B) (status : string) (t1 : list Event)
    (e : error) (templateBody : string) (readErr : option error) :
  AwaitFinalStatus stackName b = (Returned status, b1, t1) →
  ReadFrom templateBodyReader = Returned (templateBody, readErr) →
  e ≠ AwsError "ValidationError" "No updates are to be performed." →
  (status = Absent
   ∧ CreateStack (createRequest stackName templateBody stackParameters) b1
       = (Some e, b2))
  ∨ (status ≠ Absent
     ∧ UpdateStack (updateRequest stackName templateBody stackParameters) b1
         = (Some e, b2)) →
  outcome (UpsertStack stackName templateBodyReader stackParameters b)
    = Returned (Some e).
Proof.
  intros Hres Hread Hne Hfail.
  rewrite (UpsertStack_steps _ _ _ _ _ _ _ _ _ Hres Hread).
  destruct Hfail as [[-> Hcreate]|[Hpresent Hupdate]].
  - cbn [String.eqb Absent]. cbn zeta. rewrite Hcreate. reflexivity.
  - apply String.eqb_neq in Hpresent. rewrite Hpresent. cbn zeta.
    rewrite Hupdate. destruct (noUpdates e) eqn:Hno; [|reflexivity].
    apply noUpdates_spec in Hno. contradiction.
Qed.

(** C6.  After a successful create request, [UpsertStack] makes exactly one
    more call, the wait for the stack to exist, and returns [nil] whatever
    that wait answers; after a successful update request it makes no further
    call and returns [nil].  (That the request is submitted supposes that
    the template reader was drained.) *)
Theorem UpsertStack_waits_on_create_only stackName templateBodyReader
    stackParameters (b b1 : B) (status : string) (t1 : list Event)
    (templateBody : string) (readErr : option error) :
  AwaitFinalStatus stackName b = (Returned status, b1, t1) →
  ReadFrom templateBodyReader = Returned (templateBody, readErr) →
  (∀ b2 b3 werr,
     status = Absent →
     CreateStack (createRequest stackName templateBody stackParameters) b1
       = (None, b2) →
     WaitUntil StackExists {| StackName := stackName |} b2 = (werr, b3) →
     UpsertStack stackName templateBodyReader stackParameters b
       = (Returned None, b3,
          t1 ++ [EvCreateStack
                   (createRequest stackName templateBody stackParameters) None;
                 EvWaitUntil StackExists {| StackName := stackName |} werr]))
  ∧ (∀ b2,
       status ≠ Absent →
       UpdateStack (updateRequest stackName templateBody stackParameters) b1
         = (None, b2) →
       UpsertStack stackName templateBodyReader stackParameters b
         = (Returned None, b2,
            t1 ++ [EvUpdateStack
                     (updateRequest stackName templateBody stackParameters)
                     None])).
Proof.
  intros Hres Hread.
  rewrite (UpsertStack_steps _ _ _ _ _ _ _ _ _ Hres Hread). split.
  - intros b2 b3 werr -> Hcreate Hwait. cbn [String.eqb Absent]. cbn zeta.
    rewrite Hcreate, Hwait. reflexivity.
  - intros b2 Hpresent Hupdate. apply String.eqb_neq in Hpresent.
    rewrite Hpresent. cbn zeta. rewrite Hupdate. reflexivity.
Qed.

End Coordinator.

(** C3, the claim as stated fails: with a nil reader and no stack, the
    resolver returns [Absent], draining the reader dereferences nil, and the
    invocation ends without any create request. *)
Lemma UpsertStack_nil_reader_no_request :
  outcome (AwaitFinalStatus "demo-stack" (missing None)) = Returned Absent
  ∧ outcome (UpsertStack "demo-stack" NilReader demoParameters (missing None))
      = Panicked NilDereference
  ∧ count is_create
      (trace (UpsertStack "demo-stack" NilReader demoParameters (missing None)))
    ≠ 1.
Proof.
  split; [reflexivity|]. split; [reflexivity|]. vm_compute. discriminate.
Qed.

Lemma UpsertStack_no_updates_is_success_witness :
  outcome (UpsertStack "demo-stack" (readerOf "<template-a>") demoParameters
             (existing StackStatusUpdateComplete
                (Some (AwsError "ValidationError"
                         "No updates are to be performed."))))
    = Returned None.
Proof.
  eapply UpsertStack_no_updates_is_success.
  - reflexivity.
  - reflexivity.
  - discriminate.
  - reflexivity.
Defined.

Lemma UpsertStack_create_xor_update_witness :
  (count is_create
     (trace (UpsertStack "demo-stack" (readerOf "<template-a>") demoParameters
               (missing None))) = 1
   ∧ count is_update
       (trace (UpsertStack "demo-stack" (readerOf "<template-a>")
                 demoParameters (missing None))) = 0)
  ∧ (count is_update
       (trace (UpsertStack "demo-stack" (readerOf "<template-a>")
                 demoParameters (existing StackStatusUpdateComplete None))) = 1
     ∧ count is_create
         (trace (UpsertStack "demo-stack" (readerOf "<template-a>")
                   demoParameters (existing StackStatusUpdateComplete None)))
       = 0).
Proof.
  split.
  - eapply (UpsertStack_create_xor_update "demo-stack"
              (readerOf "<template-a>") demoParameters (missing None));
      reflexivity.
  - eapply (UpsertStack_create_xor_update "demo-stack"
              (readerOf "<template-a>") demoParameters
              (existing StackStatusUpdateComplete None));
      [reflexivity | reflexivity | discriminate].
Defined.

Lemma UpsertStack_error_passthrough_witness :
  outcome (UpsertStack "demo-stack" (readerOf "<template-a>") demoParameters
             (existing StackStatusUpdateComplete
                (Some (AwsError "ValidationError" "Parameter X is required"))))
    = Returned (Some (AwsError "ValidationError" "Parameter X is required")).
Proof.
  eapply UpsertStack_error_passthrough.
  - reflexivity.
  - reflexivity.
  - discriminate.
  - right. split; [discriminate | reflexivity].
Defined.

Lemma UpsertStack_waits_on_create_only_witness :
  UpsertStack "demo-stack" (readerOf "<template-a>") demoParameters
    (missing None)
    = (Returned None, missing None,
       [ EvDescribeStacks {| StackName := "demo-stack" |}
           noSuchStack.1 noSuchStack.2 ]
       ++ [ EvCreateStack
              (createRequest "demo-stack" "<template-a>" demoParameters) None;
            EvWaitUntil StackExists {| StackName := "demo-stack" |} None ])
  ∧ UpsertStack "demo-stack" (readerOf "<template-a>") demoParameters
      (existing StackStatusUpdateComplete None)
    = (Returned None, missing None,
       [ EvDescribeStacks {| StackName := "demo-stack" |}
           (stacksWith [ StackStatusUpdateComplete ]).1 None ]
       ++ [ EvUpdateStack
              (updateRequest "demo-stack" "<template-a>" demoParameters) None ]).
Proof.
  split.
  - eapply (UpsertStack_waits_on_create_only "demo-stack"
              (readerOf "<template-a>") demoParameters (missing None));
      reflexivity.
  - eapply (UpsertStack_waits_on_create_only "demo-stack"
              (readerOf "<template-a>") demoParameters
              (existing StackStatusUpdateComplete None));
      [reflexivity | reflexivity | discriminate | reflexivity].
Defined.

(** ** The parameter conversion, [buildStackParameters] *)

Lemma foldl_snoc_map {A C} (f : A → C) (l : list A) (acc : list C) :
  foldl (λ ps x, ps ++ [f x]) acc l = acc ++ map f l.
Proof.
  revert acc. induction l as [|x l IH]; intros acc; cbn.
  - by rewrite app_nil_r.
  - rewrite IH. by rewrite <- app_assoc.
Qed.

Lemma buildStackParameters_map `{MapRange} (m : gmap string string) :
  buildStackParameters m = map pairOf (range m).
Proof. unfold buildStackParameters. apply (foldl_snoc_map pairOf). Qed.

(** C8 (as amended).  [buildStackParameters] produces exactly one key/value
    pair per map entry: as many pairs as entries, no key twice, and a pair
    is produced if and only if it is an entry of the map.  Two runs on equal
    mappings produce the same pairs, possibly in a different order. *)
Theorem buildStackParameters_one_pair_per_entry (run1 : MapRange)
    (stackParameters : gmap string string) :
  length (@buildStackParameters run1 stackParameters) = size stackParameters
  ∧ NoDup (ParameterKey <$> @buildStackParameters run1 stackParameters)
  ∧ (∀ k v,
       {| ParameterKey := k; ParameterValue := v |}
         ∈ @buildStackParameters run1 stackParameters
       ↔ stackParameters !! k = Some v)
  ∧ (∀ run2 : MapRange,
       @buildStackParameters run1 stackParameters
         ≡ₚ @buildStackParameters run2 stackParameters).
Proof.
  rewrite buildStackParameters_map.
  pose proof (@range_each_entry_once run1 stackParameters) as Hperm.
  split; [|split; [|split]].
  - rewrite length_map, Hperm. apply length_map_to_list.
  - rewrite <- list_fmap_compose.
    replace (ParameterKey ∘ pairOf) with (@fst string string) by done.
    rewrite Hperm. apply NoDup_fst_map_to_list.
  - intros k v. rewrite <- elem_of_map_to_list, <- Hperm. split.
    + intros Hin. apply list_elem_of_fmap in Hin as ([k' v'] & [= -> ->] & Hin).
      exact Hin.
    + intros Hin. apply list_elem_of_fmap. by exists (k, v).
  - intros run2. rewrite (@buildStackParameters_map run2).
    apply fmap_Permutation. rewrite Hperm.
    symmetry. apply (@range_each_entry_once run2).
Qed.

(** C8, the claim as stated fails: two runs over the same two-entry map, one
    ranging in the listed order and one in the reverse order, produce
    different sequences. *)
Lemma buildStackParameters_order_varies :
  ∃ (run1 run2 : MapRange) (m1 m2 : gmap string string),
    m1 = m2
    ∧ @buildStackParameters run1 m1 ≠ @buildStackParameters run2 m2.
Proof.
  exists rangeListed, rangeReversed,
    {[ "Env" := "dev"; "Size" := "small" ]},
    {[ "Env" := "dev"; "Size" := "small" ]}.
  split; [reflexivity|]. vm_compute. discriminate.
Qed.

(** ** The revision lookup, [getRevisionFromCodePipeline] *)

Lemma find_app_split {A} (f : A → bool) (l1 l2 : list A) :
  find f (l1 ++ l2) = match find f l1 with Some x => Some x | None => find f l2 end.
Proof.
  induction l1 as [|x l1 IH]; cbn; [done|]. by destruct (f x).
Qed.

Lemma scanActions_find (actions : list (option ActionState)) :
  Forall (λ action, ∃ a, action = Some a ∧ is_Some (ActionName a)) actions →
  scanActions actions =
    match find namedSource (omap id actions) with
    | Some a => readRevision a
    | None => Returned None
    end.
Proof.
  induction 1 as [|action actions (a & -> & name & Hname) _ IH]; [done|].
  cbn. unfold namedSource at 1. rewrite Hname. cbn.
  destruct (String.eqb name "Source").
  - unfold readRevision. reflexivity.
  - exact IH.
Qed.

Lemma readRevision_not_None (a : ActionState) :
  readRevision a ≠ Returned None.
Proof.
  unfold readRevision. destruct (CurrentRevision a) as [[[id|]]|]; done.
Qed.

Lemma scanStages_find (stages : list (option StageState)) :
  Forall (λ stage, ∃ s, stage = Some s
            ∧ Forall (λ action, ∃ a, action = Some a ∧ is_Some (ActionName a))
                (ActionStates s)) stages →
  scanStages stages =
    match find namedSource
            (flat_map (λ s : StageState, omap id (ActionStates s))
               (omap id stages)) with
    | Some a => readRevision a
    | None => Returned None
    end.
Proof.
  induction 1 as [|stage stages (s & -> & Hs) _ IH]; [done|].
  cbn. rewrite find_app_split, (scanActions_find _ Hs).
  destruct (find namedSource (omap id (ActionStates s))) as [a|].
  - pose proof (readRevision_not_None a) as Hnot.
    destruct (readRevision a) as [[id|]|p]; done.
  - cbn. exact IH.
Qed.

Lemma firstSource_hasSource (r : GetPipelineStateOutput) :
  is_Some (firstSource r) ↔ hasSource r.
Proof.
  unfold firstSource, presentActions, hasSource. split.
  - intros [a Hfind]. apply find_some in Hfind as [Hin Hsrc].
    apply in_flat_map in Hin as (s & Hs & Ha).
    apply list_elem_of_In, list_elem_of_omap in Hs as (stage & Hstage & Heq).
    apply list_elem_of_In, list_elem_of_omap in Ha as (action & Haction & Heq').
    cbn in Heq, Heq'. subst stage action. exists s, a.
    split; [done|]. split; [done|].
    unfold namedSource in Hsrc. destruct (ActionName a) as [name|]; [|done].
    apply String.eqb_eq in Hsrc. by subst name.
  - intros (s & a & Hs & Ha & Hname).
    destruct (find namedSource _) as [a'|] eqn:Hfind; [by eexists|].
    exfalso. eapply find_none in Hfind.
    + unfold namedSource in Hfind. rewrite Hname in Hfind. discriminate Hfind.
    + apply in_flat_map. exists s. split; apply list_elem_of_In, list_elem_of_omap.
      * by exists (Some s).
      * by exists (Some a).
Qed.

(** C9 (as amended).  For a pipeline state response in which every stage and
    action is present and every action is named: when some stage has an
    action named [Source], the first such action in scan order exists and, if
    it carries a current revision with an identifier, that identifier is
    returned with no error; and the not-found error is returned, with an
    empty revision, exactly when no stage has an action named [Source]. *)
Theorem getRevisionFromCodePipeline_first_Source `{CodePipelineService}
    (pipelineName : string) (r : GetPipelineStateOutput) :
  NewSession = None →
  GetPipelineState {| Name := pipelineName |} = (Some r, None) →
  allNamed r →
  (hasSource r →
   ∃ a, firstSource r = Some a ∧ ActionName a = Some "Source"
        ∧ ∀ id, revisionOf a = Some id →
                getRevisionFromCodePipeline pipelineName = Returned (id, None))
  ∧ (getRevisionFromCodePipeline pipelineName
       = Returned ("", Some (notFound pipelineName))
     ↔ ¬ hasSource r).
Proof.
  intros Hsess Hstate Hnamed. unfold getRevisionFromCodePipeline.
  rewrite Hsess, Hstate. cbn [deref bind_result].
  rewrite (scanStages_find _ Hnamed). fold (presentActions r).
  fold (firstSource r). rewrite <- firstSource_hasSource.
  destruct (firstSource r) as [a|] eqn:Hfirst.
  - split.
    + intros _. exists a. split; [done|]. split.
      * apply find_some in Hfirst as [_ Hsrc]. unfold namedSource in Hsrc.
        destruct (ActionName a) as [name|]; [|done].
        apply String.eqb_eq in Hsrc. by subst name.
      * intros id. unfold revisionOf, readRevision.
        destruct (CurrentRevision a) as [rev|]; [|done].
        intros Hid. cbn. rewrite Hid. reflexivity.
    + split.
      * unfold readRevision.
        destruct (CurrentRevision a) as [[[id|]]|]; discriminate.
      * intros Hno. destruct Hno. by eexists.
  - split.
    + intros [a Ha]. discriminate Ha.
    + split; [|done]. intros _ [a Ha]. discriminate Ha.
Qed.

Lemma hasSource_stateWithRevision : hasSource stateWithRevision.
Proof.
  eexists _, _. split; [|split].
  - apply list_elem_of_here.
  - apply list_elem_of_here.
  - reflexivity.
Defined.

Lemma allNamed_stateWithRevision : allNamed stateWithRevision.
Proof.
  repeat first
    [ apply Forall_nil_2
    | apply Forall_cons_2
    | eexists; split; [reflexivity|]
    | by eexists ].
Defined.

Lemma getRevisionFromCodePipeline_first_Source_witness :
  @getRevisionFromCodePipeline (serving stateWithRevision) "demo-pipeline"
    = Returned ("4f2c9a1", None).
Proof.
  destruct (@getRevisionFromCodePipeline_first_Source
              (serving stateWithRevision) "demo-pipeline" stateWithRevision
              eq_refl eq_refl allNamed_stateWithRevision) as [Hfound _].
  destruct (Hfound hasSource_stateWithRevision) as (a & Hfirst & _ & Hrev).
  apply Hrev. injection Hfirst as <-. reflexivity.
Defined.

(** C9, the claim as stated fails: the response has an action named
    [Source], but that action has no current revision; reading its revision
    identifier dereferences nil, and the call returns neither a revision nor
    an error. *)
Lemma getRevisionFromCodePipeline_no_revision :
  hasSource stateBeforeFirstRun
  ∧ @getRevisionFromCodePipeline (serving stateBeforeFirstRun) "demo-pipeline"
      = Panicked NilDereference.
Proof.
  split; [|reflexivity].
  eexists _, _. split; [|split].
  - apply list_elem_of_here.
  - apply list_elem_of_here.
  - reflexivity.
Qed.

(** * Further properties *)

(** ** More on the status resolver *)

Lemma is_case_elem_of (status : string) (cases : list string) :
  is_case status cases = true ↔ status ∈ cases.
Proof.
  unfold is_case. rewrite existsb_exists. split.
  - intros (c & Hin & Heq). apply String.eqb_eq in Heq. subst c.
    by apply list_elem_of_In.
  - intros Hin. exists status. split; [by apply list_elem_of_In|].
    apply String.eqb_refl.
Qed.

(** The waiter chosen by the [switch], by family of statuses. *)
Lemma waiterOf_family (status : string) (w : Waiter) :
  waiterOf status = Some w →
  (w = StackCreateComplete
   ∧ status ∈ [ "REVIEW_IN_PROGRESS"; "CREATE_IN_PROGRESS";
                "ROLLBACK_IN_PROGRESS" ])
  ∨ (w = StackDeleteComplete ∧ status = "DELETE_IN_PROGRESS")
  ∨ (w = StackUpdateComplete
     ∧ status ∈ [ "UPDATE_IN_PROGRESS"; "UPDATE_ROLLBACK_IN_PROGRESS";
                  "UPDATE_COMPLETE_CLEANUP_IN_PROGRESS";
                  "UPDATE_ROLLBACK_COMPLETE_CLEANUP_IN_PROGRESS" ]).
Proof.
  unfold waiterOf.
  destruct (is_case status [_; _; _]) eqn:Hcreate.
  { intros [= <-]. left. split; [done|]. by apply is_case_elem_of. }
  destruct (is_case status [_]) eqn:Hdelete.
  { intros [= <-]. right. left. split; [done|].
    apply is_case_elem_of, list_elem_of_singleton in Hdelete. exact Hdelete. }
  destruct (is_case status [_; _; _; _]) eqn:Hupdate; [|discriminate].
  intros [= <-]. right. right. split; [done|]. by apply is_case_elem_of.
Qed.

Section ResolverMore.

Context {B : Type} `{cfnAPI : CloudFormationAPI B}.

(** X1.  When the first query lists exactly one stack and its status is not
    one of the eight in-progress statuses (a final status, or one the code
    does not know), [AwaitFinalStatus] returns that status unchanged after
    this single call: no wait, no second query. *)
Theorem AwaitFinalStatus_settled_status (stackName : string) (b b1 : B)
    (r : DescribeStacksOutput) (st : Stack) (status : string) :
  DescribeStacks {| StackName := stackName |} b = ((Some r, None), b1) →
  Stacks r = [ Some st ] →
  StackStatus st = Some status →
  is_case status Transitional = false →
  AwaitFinalStatus stackName b
    = (Returned status, b1,
       [ EvDescribeStacks {| StackName := stackName |} (Some r) None ]).
Proof.
  intros Hq Hstacks Hstatus Hsettled. rewrite AwaitFinalStatus_steps.
  cbn zeta. rewrite Hq. cbn. rewrite Hstacks. cbn. rewrite Hstatus.
  destruct (waiterOf status) as [w|] eqn:Hw; [|reflexivity].
  assert (is_case status Transitional = true) as Ht
    by (apply waiterOf_Transitional; by eexists).
  congruence.
Qed.

(** X2.  When the first query lists exactly one stack in an in-progress
    status, [AwaitFinalStatus] makes exactly three calls: the query, one wait
    and one more query.  The wait is for create-complete, delete-complete or
    update-complete according to the family of the status.  Neither the
    error of the wait, nor the error of the second query, nor the number of
    stacks it lists is looked at: the outcome is the reading of the status
    of the first stack of the second answer. *)
Theorem AwaitFinalStatus_waits_once (stackName : string) (b b1 : B)
    (r : DescribeStacksOutput) (st : Stack) (status : string) :
  DescribeStacks {| StackName := stackName |} b = ((Some r, None), b1) →
  Stacks r = [ Some st ] →
  StackStatus st = Some status →
  is_case status Transitional = true →
  ∃ w,
    ((w = StackCreateComplete
      ∧ status ∈ [ "REVIEW_IN_PROGRESS"; "CREATE_IN_PROGRESS";
                   "ROLLBACK_IN_PROGRESS" ])
     ∨ (w = StackDeleteComplete ∧ status = "DELETE_IN_PROGRESS")
     ∨ (w = StackUpdateComplete
        ∧ status ∈ [ "UPDATE_IN_PROGRESS"; "UPDATE_ROLLBACK_IN_PROGRESS";
                     "UPDATE_COMPLETE_CLEANUP_IN_PROGRESS";
                     "UPDATE_ROLLBACK_COMPLETE_CLEANUP_IN_PROGRESS" ]))
    ∧ ∀ werr b2 resp2 err2 b3,
        WaitUntil w {| StackName := stackName |} b1 = (werr, b2) →
        DescribeStacks {| StackName := stackName |} b2 = ((resp2, err2), b3) →
        AwaitFinalStatus stackName b
          = (firstStackStatus resp2, b3,
             [ EvDescribeStacks {| StackName := stackName |} (Some r) None;
               EvWaitUntil w {| StackName := stackName |} werr;
               EvDescribeStacks {| StackName := stackName |} resp2 err2 ]).
Proof.
  intros Hq Hstacks Hstatus Hprogress.
  apply waiterOf_Transitional in Hprogress as [w Hw]. exists w.
  split; [by apply waiterOf_family|].
  intros werr b2 resp2 err2 b3 Hwait Hq2. rewrite AwaitFinalStatus_steps.
  cbn zeta. rewrite Hq. cbn. rewrite Hstacks. cbn. rewrite Hstatus, Hw, Hwait, Hq2.
  reflexivity.
Qed.

(** X3.  [AwaitFinalStatus] panics only on reading the status of the first
    stack of the last answer it received: that answer is nil, lists no
    stack, or its first stack or that stack's status is nil. *)
Theorem AwaitFinalStatus_panic_source (stackName : string) (b : B) (p : panic) :
  outcome (AwaitFinalStatus stackName b) = Panicked p →
  ∃ params resp err,
    last (trace (AwaitFinalStatus stackName b))
      = Some (EvDescribeStacks params resp err)
    ∧ firstStackStatus resp = Panicked p.
Proof.
  rewrite AwaitFinalStatus_steps. cbn zeta.
  destruct (DescribeStacks _ b) as [[resp err] b1].
  destruct (oneStack resp err); [|discriminate].
  destruct (firstStackStatus resp) as [status|p'] eqn:Hfirst.
  - destruct (waiterOf status) as [w|]; [|discriminate].
    destruct (WaitUntil w _ b1) as [werr b2].
    destruct (DescribeStacks _ b2) as [[resp2 err2] b3].
    unfold outcome, trace. cbn [fst snd]. intros Hp. by eexists _, _, _.
  - unfold outcome, trace. cbn [fst snd]. intros [= ->]. by eexists _, _, _.
Qed.

(** X4.  Every call that [AwaitFinalStatus] makes is a query or a wait about
    the stack it was asked about; it makes at most two queries and at most
    one wait, and a wait is always followed by a second query. *)
Theorem AwaitFinalStatus_calls (stackName : string) (b : B) :
  Forall (readsStack stackName) (trace (AwaitFinalStatus stackName b))
  ∧ count is_describe (trace (AwaitFinalStatus stackName b))
      = 1 + count is_wait (trace (AwaitFinalStatus stackName b))
  ∧ (count is_wait (trace (AwaitFinalStatus stackName b)) ≤ 1)%nat.
Proof.
  rewrite AwaitFinalStatus_steps. cbn zeta.
  destruct (DescribeStacks _ b) as [[resp err] b1].
  destruct (oneStack resp err);
    [destruct (firstStackStatus resp) as [status|p];
       [destruct (waiterOf status) as [w|];
          [destruct (WaitUntil w _ b1) as [werr b2];
           destruct (DescribeStacks _ b2) as [[resp2 err2] b3]|]|]|];
    unfold trace; cbn [snd];
    (split; [repeat (apply Forall_cons_2; [reflexivity|]); apply Forall_nil_2
           |split; [reflexivity|vm_compute; lia]]).
Qed.

End ResolverMore.

Lemma AwaitFinalStatus_settled_status_witness :
  AwaitFinalStatus "demo-stack" (existing StackStatusUpdateComplete None)
    = (Returned StackStatusUpdateComplete, missing None,
       [ EvDescribeStacks {| StackName := "demo-stack" |}
           (stacksWith [ StackStatusUpdateComplete ]).1 None ]).
Proof.
  eapply (AwaitFinalStatus_settled_status "demo-stack"
            (existing StackStatusUpdateComplete None)); reflexivity.
Defined.

Lemma AwaitFinalStatus_waits_once_witness :
  outcome (AwaitFinalStatus "demo-stack" creating)
    = Returned StackStatusCreateComplete.
Proof.
  edestruct (AwaitFinalStatus_waits_once "demo-stack" creating)
    as (w & _ & Hrun); [reflexivity|reflexivity|reflexivity|reflexivity|].
  pose proof (Hrun _ _ _ _ _ eq_refl eq_refl) as Heq.
  rewrite Heq. reflexivity.
Defined.

Lemma AwaitFinalStatus_panic_source_witness :
  ∃ params resp err,
    last (trace (AwaitFinalStatus "demo-stack" deleting))
      = Some (EvDescribeStacks params resp err)
    ∧ firstStackStatus resp = Panicked IndexOutOfRange.
Proof.
  apply (AwaitFinalStatus_panic_source "demo-stack" deleting IndexOutOfRange).
  reflexivity.
Defined.

(** ** More on the upsert coordinator *)

Lemma readsStack_upsertCall stackName templateBody parameters (e : Event) :
  readsStack stackName e → upsertCall stackName templateBody parameters e.
Proof. by destruct e. Qed.

Section CoordinatorMore.

Context {B : Type} `{cfnAPI : CloudFormationAPI B} `{goRange : MapRange}.

(** X5.  In every run of [UpsertStack], also one that ends in a panic, each
    call is about the stack named in the invocation, and a create or update
    request carries that name, the template body as read, the single
    capability [CAPABILITY_IAM] and the converted parameters. *)
Theorem UpsertStack_calls (stackName : string) (templateBodyReader : Reader)
    (stackParameters : gmap string string) (b : B) :
  Forall
    (upsertCall stackName (drained templateBodyReader)
       (buildStackParameters stackParameters))
    (trace (UpsertStack stackName templateBodyReader stackParameters b)).
Proof.
  pose proof (AwaitFinalStatus_calls stackName b) as [Hreads _].
  eapply Forall_impl in Hreads;
    [|apply (readsStack_upsertCall stackName (drained templateBodyReader)
               (buildStackParameters stackParameters))].
  destruct (AwaitFinalStatus stackName b) as [[[status|p] b1] t1] eqn:Hres.
  - unfold trace in Hreads. cbn [snd] in Hreads. unfold drained in *.
    destruct (ReadFrom templateBodyReader) as [[templateBody readErr]|p]
      eqn:Hread.
    + rewrite (UpsertStack_steps _ _ _ _ _ _ _ _ _ Hres Hread).
      destruct (String.eqb status Absent); cbn zeta.
      * destruct (CreateStack _ b1) as [[e|] b2].
        -- unfold trace. cbn [snd]. apply Forall_app. split; [done|].
           by repeat constructor.
        -- destruct (WaitUntil _ _ b2) as [werr b3].
           unfold trace. cbn [snd]. apply Forall_app. split; [done|].
           by repeat constructor.
      * destruct (UpdateStack _ b1) as [err b2].
        unfold trace. cbn [snd]. apply Forall_app. split; [done|].
        by repeat constructor.
    + rewrite (UpsertStack_reader_panic _ _ _ _ _ _ _ _ Hres Hread).
      exact Hreads.
  - rewrite (UpsertStack_resolver_panic _ _ _ _ _ _ _ Hres). exact Hreads.
Qed.

(** X6.  Once the resolver has returned, [UpsertStack] returns [nil] exactly
    when the template reader was drained and the create request succeeded
    (stack absent), or the update request succeeded or was refused as
    changing nothing (stack present). *)
Theorem UpsertStack_success_iff stackName templateBodyReader stackParameters
    (b b1 : B) (status : string) (t1 : list Event) :
  AwaitFinalStatus stackName b = (Returned status, b1, t1) →
  outcome (UpsertStack stackName templateBodyReader stackParameters b)
    = Returned None
  ↔ ∃ templateBody readErr,
      ReadFrom templateBodyReader = Returned (templateBody, readErr)
      ∧ ((status = Absent
          ∧ (CreateStack
               (createRequest stackName templateBody stackParameters) b1).1
              = None)
         ∨ (status ≠ Absent
            ∧ ((UpdateStack
                  (updateRequest stackName templateBody stackParameters) b1).1
                 = None
               ∨ (UpdateStack
                    (updateRequest stackName templateBody stackParameters)
                    b1).1
                   = Some (AwsError "ValidationError"
                             "No updates are to be performed.")))).
Proof.
  intros Hres.
  destruct (ReadFrom templateBodyReader) as [[templateBody readErr]|p]
    eqn:Hread.
  2:{ rewrite (UpsertStack_reader_panic _ _ _ _ _ _ _ _ Hres Hread).
      split; [discriminate|]. intros (? & ? & Heq & _). discriminate Heq. }
  rewrite (UpsertStack_steps _ _ _ _ _ _ _ _ _ Hres Hread).
  assert (∀ P : string → Prop,
            (∃ body (rerr : option error),
               Returned (templateBody, readErr) = Returned (body, rerr) ∧ P body)
            ↔ P templateBody) as Hex.
  { intros P. split.
    - by intros (body & rerr & [= <- <-] & HP).
    - intros HP. by exists templateBody, readErr. }
  rewrite Hex. clear Hex.
  destruct (String.eqb status Absent) eqn:Habs; cbn zeta.
  - apply String.eqb_eq in Habs.
    destruct (CreateStack _ b1) as [[e|] b2]; cbn [fst].
    + split; [discriminate|]. intros [[_ Hc]|[Hne _]]; [discriminate|done].
    + destruct (WaitUntil _ _ b2) as [werr b3]. split; [|done].
      intros _. by left.
  - apply String.eqb_neq in Habs.
    destruct (UpdateStack _ b1) as [[e|] b2]; cbn [fst].
    + unfold outcome. cbn [fst]. destruct (noUpdates e) eqn:Hno.
      * apply noUpdates_spec in Hno. subst e. split; [|done].
        intros _. right. split; [done|]. by right.
      * split; [discriminate|]. intros [[Heq _]|[_ [Hn|Hs]]]; [done|done|].
        injection Hs as ->. discriminate Hno.
    + split; [|done]. intros _. right. split; [done|]. by left.
Qed.

(** X7.  When the stack is absent and the create request fails, [UpsertStack]
    returns that error, whatever it is (the "no updates" error too: it is
    taken as success on the update path only), and does not wait for the
    stack to exist: the create request is its last call. *)
Theorem UpsertStack_create_failure stackName templateBodyReader
    stackParameters (b b1 b2 : B) (t1 : list Event) (e : error)
    (templateBody : string) (readErr : option error) :
  AwaitFinalStatus stackName b = (Returned Absent, b1, t1) →
  ReadFrom templateBodyReader = Returned (templateBody, readErr) →
  CreateStack (createRequest stackName templateBody stackParameters) b1
    = (Some e, b2) →
  UpsertStack stackName templateBodyReader stackParameters b
    = (Returned (Some e), b2,
       t1 ++ [ EvCreateStack
                 (createRequest stackName templateBody stackParameters)
                 (Some e) ]).
Proof.
  intros Hres Hread Hcreate.
  rewrite (UpsertStack_steps _ _ _ _ _ _ _ _ _ Hres Hread).
  cbn [String.eqb Absent]. cbn zeta. rewrite Hcreate. reflexivity.
Qed.

(** X8.  [UpsertStack] panics exactly when the resolver panics or, the
    resolver having returned, draining the template reader panics; the panic
    is that one, and the run has then issued no request: its calls are those
    of the resolver.  In every run it issues at most one create or update
    request. *)
Theorem UpsertStack_panics stackName templateBodyReader stackParameters
    (b : B) :
  (∀ p, outcome (UpsertStack stackName templateBodyReader stackParameters b)
          = Panicked p
        ↔ outcome (AwaitFinalStatus stackName b) = Panicked p
          ∨ ((∃ status,
                outcome (AwaitFinalStatus stackName b) = Returned status)
             ∧ ReadFrom templateBodyReader = Panicked p))
  ∧ (∀ p, outcome (UpsertStack stackName templateBodyReader stackParameters b)
            = Panicked p →
          trace (UpsertStack stackName templateBodyReader stackParameters b)
            = trace (AwaitFinalStatus stackName b))
  ∧ (count is_create
       (trace (UpsertStack stackName templateBodyReader stackParameters b))
     + count is_update
         (trace (UpsertStack stackName templateBodyReader stackParameters b))
     ≤ 1)%nat.
Proof.
  pose proof (AwaitFinalStatus_reads_only stackName b) as [Hc Hu].
  destruct (AwaitFinalStatus stackName b) as [[[status|p0] b1] t1] eqn:Hres.
  - unfold trace in Hc, Hu. cbn [snd] in Hc, Hu.
    destruct (ReadFrom templateBodyReader) as [[templateBody readErr]|p0]
      eqn:Hread.
    + rewrite (UpsertStack_steps _ _ _ _ _ _ _ _ _ Hres Hread).
      destruct (String.eqb status Absent); cbn zeta;
        [destruct (CreateStack _ b1) as [[e|] b2];
           [|destruct (WaitUntil _ _ b2) as [werr b3]]
        |destruct (UpdateStack _ b1) as [[e|] b2];
           [destruct (noUpdates e)|]];
        unfold outcome, trace; cbn [fst snd];
        (split; [|split];
         [intros p; split;
            [discriminate|intros [Heq|[_ Heq]]; discriminate Heq]
         |intros p Heq; discriminate Heq
         |rewrite !count_app, Hc, Hu; vm_compute; lia]).
    + rewrite (UpsertStack_reader_panic _ _ _ _ _ _ _ _ Hres Hread).
      unfold outcome, trace. cbn [fst snd]. split; [|split].
      * intros p. split.
        -- intros [= ->]. right. split; [by eexists|done].
        -- intros [Heq|[_ Heq]]; [discriminate Heq|]. by injection Heq as ->.
      * done.
      * rewrite Hc, Hu. lia.
  - rewrite (UpsertStack_resolver_panic _ _ _ _ _ _ _ Hres).
    unfold outcome, trace in *. cbn [fst snd] in *.
    split; [|split; [intros p _; reflexivity|]].
    + intros p. split.
      * intros [= ->]. by left.
      * intros [[= ->]|[[status Heq] _]]; [done|discriminate Heq].
    + rewrite Hc, Hu. lia.
Qed.

End CoordinatorMore.

Lemma UpsertStack_success_iff_witness :
  outcome (UpsertStack "demo-stack" (readerOf "<template-a>") demoParameters
             (missing None)) = Returned None.
Proof.
  eapply (UpsertStack_success_iff "demo-stack" (readerOf "<template-a>")
            demoParameters (missing None)).
  - reflexivity.
  - exists "<template-a>", None. split; [reflexivity|].
    left. split; reflexivity.
Defined.

Lemma UpsertStack_create_failure_witness :
  UpsertStack "demo-stack" (readerOf "<template-a>") demoParameters
    (missing (Some (AwsError "ValidationError"
                      "No updates are to be performed.")))
  = (Returned (Some (AwsError "ValidationError"
                       "No updates are to be performed.")),
     missing (Some (AwsError "ValidationError"
                      "No updates are to be performed.")),
     [ EvDescribeStacks {| StackName := "demo-stack" |}
         noSuchStack.1 noSuchStack.2 ]
     ++ [ EvCreateStack
            (createRequest "demo-stack" "<template-a>" demoParameters)
            (Some (AwsError "ValidationError"
                     "No updates are to be performed.")) ]).
Proof.
  eapply (UpsertStack_create_failure "demo-stack" (readerOf "<template-a>")
            demoParameters); reflexivity.
Defined.

(** ** More on the parameter conversion *)

Lemma entryOf_pairOf (l : list (string * string)) :
  entryOf <$> (pairOf <$> l) = l.
Proof.
  rewrite <- list_fmap_compose. rewrite <- (list_fmap_id l) at 2.
  apply list_fmap_ext. by intros _ [k v] _.
Qed.

(** X9.  The mapping can be read back from the converted parameters:
    whatever the order in which the map was ranged over, the map built from
    the key/value pairs of the list is the mapping that was converted. *)
Theorem buildStackParameters_round_trip (run1 : MapRange)
    (stackParameters : gmap string string) :
  list_to_map (entryOf <$> @buildStackParameters run1 stackParameters)
    = stackParameters.
Proof.
  rewrite buildStackParameters_map.
  change (map pairOf (@range run1 stackParameters))
    with (pairOf <$> @range run1 stackParameters).
  rewrite entryOf_pairOf.
  pose proof (@range_each_entry_once run1 stackParameters) as Hperm.
  rewrite <- (list_to_map_to_list stackParameters) at 2.
  apply list_to_map_proper; [|exact Hperm].
  rewrite Hperm. apply NoDup_fst_map_to_list.
Qed.

(** X10.  For a mapping with at most one entry the converted sequence is the
    same in every run: the order of a map range can only matter from two
    entries on. *)
Theorem buildStackParameters_small_map (run1 run2 : MapRange)
    (stackParameters : gmap string string) :
  (size stackParameters ≤ 1)%nat →
  @buildStackParameters run1 stackParameters
    = @buildStackParameters run2 stackParameters.
Proof.
  intros Hsize. rewrite !buildStackParameters_map. f_equal.
  pose proof (@range_each_entry_once run1 stackParameters) as H1.
  pose proof (@range_each_entry_once run2 stackParameters) as H2.
  rewrite <- length_map_to_list in Hsize.
  destruct (map_to_list stackParameters) as [|x [|y l]]; cbn in Hsize.
  - apply Permutation_nil_r in H1, H2. congruence.
  - apply Permutation_singleton_r in H1, H2. congruence.
  - lia.
Qed.

(** X11.  Adding an entry under a fresh key to the mapping adds exactly its
    pair to the converted parameters (up to order). *)
Theorem buildStackParameters_insert (run1 run2 : MapRange)
    (stackParameters : gmap string string) (k v : string) :
  stackParameters !! k = None →
  @buildStackParameters run1 (<[k:=v]> stackParameters)
    ≡ₚ {| ParameterKey := k; ParameterValue := v |}
         :: @buildStackParameters run2 stackParameters.
Proof.
  intros Hfresh. rewrite !buildStackParameters_map.
  change {| ParameterKey := k; ParameterValue := v |} with (pairOf (k, v)).
  change (pairOf (k, v) :: map pairOf (@range run2 stackParameters))
    with (map pairOf ((k, v) :: @range run2 stackParameters)).
  apply fmap_Permutation.
  rewrite (@range_each_entry_once run1), (@range_each_entry_once run2).
  by apply map_to_list_insert.
Qed.

Lemma buildStackParameters_small_map_witness :
  @buildStackParameters rangeListed demoParameters
    = @buildStackParameters rangeReversed demoParameters.
Proof.
  apply (buildStackParameters_small_map rangeListed rangeReversed
           demoParameters).
  vm_compute. apply le_n.
Defined.

Lemma buildStackParameters_insert_witness :
  @buildStackParameters rangeListed (<[ "Size" := "small" ]> demoParameters)
    ≡ₚ {| ParameterKey := "Size"; ParameterValue := "small" |}
         :: @buildStackParameters rangeReversed demoParameters.
Proof.
  apply (buildStackParameters_insert rangeListed rangeReversed demoParameters
           "Size" "small").
  reflexivity.
Defined.

(** ** More on the revision lookup *)

(** The outer loop over two runs of stages: the second run is scanned only
    when the first one is scanned to its end without a [Source] action. *)
Lemma scanStages_app (stages more : list (option StageState)) :
  scanStages (stages ++ more)
    = match scanStages stages with
      | Returned None => scanStages more
      | found => found
      end.
Proof.
  induction stages as [|stage stages IH]; cbn.
  - by destruct (scanStages more) as [[id|]|p].
  - destruct stage as [s|]; cbn; [|done].
    destruct (scanActions (ActionStates s)) as [[id|]|p]; cbn; done.
Qed.

Section LookupMore.

Context `{service : CodePipelineService}.

(** X12.  [getRevisionFromCodePipeline] never returns a revision together
    with an error: a returned error comes with the empty revision, and it is
    either the error of the service's answer or, when the service answered
    without error, the not-found error that names the pipeline. *)
Theorem getRevisionFromCodePipeline_error_or_revision (pipelineName : string)
    (revision : string) (e : error) :
  getRevisionFromCodePipeline pipelineName = Returned (revision, Some e) →
  revision = ""
  ∧ ((GetPipelineState {| Name := pipelineName |}).2 = Some e
     ∨ ((GetPipelineState {| Name := pipelineName |}).2 = None
        ∧ e = OtherError
                ("Can not locate revision from CodePipeline: " +:+ pipelineName))).
Proof.
  unfold getRevisionFromCodePipeline.
  destruct NewSession as [e0|]; [discriminate|].
  destruct (GetPipelineState _) as [response [e1|]]; cbn [snd].
  - intros [= <- <-]. split; [done|]. by left.
  - destruct response as [r|]; [|discriminate]. cbn.
    destruct (scanStages (StageStates r)) as [[id|]|p]; cbn; [discriminate| |discriminate].
    intros [= <- <-]. split; [done|]. by right.
Qed.

(** X13.  The scan ends at the first action named [Source]: when the lookup
    on a state finds a revision (or panics), stages that follow in the state
    are not read, whatever they hold; when it finds no [Source] action, the
    lookup on the state followed by more stages is the lookup on those
    stages. *)
Theorem getRevisionFromCodePipeline_more_stages (pipelineName : string)
    (r : GetPipelineStateOutput) (more : list (option StageState)) :
  NewSession = None →
  GetPipelineState {| Name := pipelineName |} = (Some r, None) →
  (getRevisionFromCodePipeline pipelineName
     ≠ Returned ("", Some (notFound pipelineName)) →
   @getRevisionFromCodePipeline
       (serving {| StageStates := StageStates r ++ more |}) pipelineName
     = getRevisionFromCodePipeline pipelineName)
  ∧ (getRevisionFromCodePipeline pipelineName
       = Returned ("", Some (notFound pipelineName)) →
     @getRevisionFromCodePipeline
         (serving {| StageStates := StageStates r ++ more |}) pipelineName
       = @getRevisionFromCodePipeline
           (serving {| StageStates := more |}) pipelineName).
Proof.
  intros Hsess Hstate. unfold getRevisionFromCodePipeline.
  rewrite Hsess, Hstate. cbn. rewrite scanStages_app.
  destruct (scanStages (StageStates r)) as [[id|]|p]; cbn.
  - split; [done|discriminate].
  - split; [done|]. intros _. reflexivity.
  - split; [done|discriminate].
Qed.

(** X14.  [ListState] and [getRevisionFromCodePipeline] agree.  When
    [ListState] returns stages, the lookup is the lookup in these stages;
    when it returns an error, it returns no stage and the lookup returns
    the same error; when it panics (an answer with neither a state nor an
    error), so does the lookup. *)
Theorem ListState_feeds_lookup (pipelineName : string) :
  NewSession = None →
  match ListState pipelineName with
  | Returned (stages, None) =>
      getRevisionFromCodePipeline pipelineName
        = @getRevisionFromCodePipeline
            (serving {| StageStates := stages |}) pipelineName
  | Returned (stages, Some e) =>
      stages = []
      ∧ getRevisionFromCodePipeline pipelineName = Returned ("", Some e)
  | Panicked p => getRevisionFromCodePipeline pipelineName = Panicked p
  end.
Proof.
  intros Hsess. unfold ListState, getRevisionFromCodePipeline.
  rewrite Hsess. cbn zeta.
  destruct (GetPipelineState _) as [[r|] [e|]]; cbn; done.
Qed.

End LookupMore.

Lemma getRevisionFromCodePipeline_error_or_revision_witness :
  "" = ""
  ∧ ((@GetPipelineState (serving stateWithoutSource)
        {| Name := "demo-pipeline" |}).2
       = Some (notFound "demo-pipeline")
     ∨ ((@GetPipelineState (serving stateWithoutSource)
           {| Name := "demo-pipeline" |}).2 = None
        ∧ notFound "demo-pipeline"
            = OtherError
                ("Can not locate revision from CodePipeline: "
                   +:+ "demo-pipeline"))).
Proof.
  apply (@getRevisionFromCodePipeline_error_or_revision
           (serving stateWithoutSource) "demo-pipeline" ""
           (notFound "demo-pipeline")).
  reflexivity.
Defined.

Lemma getRevisionFromCodePipeline_more_stages_witness :
  @getRevisionFromCodePipeline
      (serving {| StageStates := StageStates stateWithRevision ++ [ None ] |})
      "demo-pipeline"
    = Returned ("4f2c9a1", None)
  ∧ @getRevisionFromCodePipeline
        (serving {| StageStates := StageStates stateWithoutSource
                                     ++ StageStates stateWithRevision |})
        "demo-pipeline"
      = Returned ("4f2c9a1", None).
Proof.
  split.
  - rewrite (proj1 (@getRevisionFromCodePipeline_more_stages
                      (serving stateWithRevision) "demo-pipeline"
                      stateWithRevision [ None ] eq_refl eq_refl)).
    + reflexivity.
    + intros Heq. vm_compute in Heq. discriminate Heq.
  - rewrite (proj2 (@getRevisionFromCodePipeline_more_stages
                      (serving stateWithoutSource) "demo-pipeline"
                      stateWithoutSource (StageStates stateWithRevision)
                      eq_refl eq_refl)).
    + reflexivity.
    + reflexivity.
Defined.

Lemma ListState_feeds_lookup_witness :
  @getRevisionFromCodePipeline (serving stateWithRevision) "demo-pipeline"
    = @getRevisionFromCodePipeline
        (serving {| StageStates := StageStates stateWithRevision |})
        "demo-pipeline"
  ∧ ([] = @nil (option StageState)
     ∧ @getRevisionFromCodePipeline
           (failing (AwsError "PipelineNotFoundException" "no such pipeline"))
           "demo-pipeline"
         = Returned ("", Some (AwsError "PipelineNotFoundException"
                                 "no such pipeline"))).
Proof.
  split.
  - exact (@ListState_feeds_lookup (serving stateWithRevision)
             "demo-pipeline" eq_refl).
  - exact (@ListState_feeds_lookup
             (failing (AwsError "PipelineNotFoundException" "no such pipeline"))
             "demo-pipeline" eq_refl).
Defined.
